(** * A shallow embedding of the request catcher ([src/app.py])

    The application is one Flask view, [catch_all], that records every
    inbound request in the module-level list [requests_log] (newest first,
    capped at 50 entries) and renders the list.

    The embedding keeps the shape of the source:
    - Python values that can end up in a record's ['body'] are the
      constructors of [pyval];
    - statements that read and write state and may raise live in a small
      state-and-exception monad [ST]; the module-level list is the state
      of the view ([M]), its methods [insert], [len] and [pop] are the
      primitive operations, [pop] raising on the empty list as Python's
      does;
    - the Flask request object is a record of what was received, together
      with the state of the object ([Input]): what is left on its input
      stream and what [get_data] and [request.form] have cached; Werkzeug
      reads the payload once, and the accessors below follow that;
    - the two parsers behind the accessors, [json.loads] and Werkzeug's
      form parser, are parameters of the development ([Parsers]); each
      can return, fail with the [ValueError] that the silent modes
      swallow, or raise something else, which nothing in the view
      catches;
    - the Jinja template is rendered to a structured page, one card per
      log entry, the body block being the value of the template
      expression [req.body or '...']. *)

From Stdlib Require Import String Ascii List Bool Arith ZArith Lia.
From Stdlib Require Import Floats.SpecFloat.
Import ListNotations.
Local Open Scope string_scope.
Local Open Scope list_scope.

Set Warnings "-register-all".

(** ** Python values and exceptions *)

Module Py.

(** The values a record's body can hold: the empty string it starts
    with, the dictionaries of [to_dict], the text of [get_data], and
    whatever [json.loads] produces. *)
Inductive pyval : Type :=
| PyNone
| PyBool (b : bool)
| PyInt (z : Z)
| PyFloat (f : spec_float)
| PyStr (s : string)
| PyList (l : list pyval)
| PyDict (d : list (string * pyval)).

Definition float_is_zero (f : spec_float) : bool :=
  match f with
  | S754_zero _ => true
  | _ => false
  end.

(** Python's truth value testing, as used by [if form_data:] in the
    view and by [or] and [{% if %}] in the template. *)
Definition truthy (v : pyval) : bool :=
  match v with
  | PyNone => false
  | PyBool b => b
  | PyInt z => negb (Z.eqb z 0)
  | PyFloat f => negb (float_is_zero f)
  | PyStr s => negb (String.eqb s "")
  | PyList l => match l with [] => false | _ :: _ => true end
  | PyDict d => match d with [] => false | _ :: _ => true end
  end.

(** [a or b] *)
Definition py_or (a b : pyval) : pyval := if truthy a then a else b.

(** [v is None] *)
Definition is_None (v : pyval) : bool :=
  match v with
  | PyNone => true
  | _ => false
  end.

(** Exceptions that the operations used by the view can raise. *)
Inductive exn : Type :=
| IndexError
| BadRequest
| UnsupportedMediaType
| RecursionError
| RequestEntityTooLarge.

(** A computation that returns or raises. *)
Definition Exc (A : Type) : Type := (exn + A)%type.

Definition returns {A : Type} (a : A) : Exc A := inr a.
Definition raises {A : Type} (e : exn) : Exc A := inl e.

End Py.
Import Py.

(** ** Statements: state and exceptions *)

Definition ST (S A : Type) : Type := S -> Exc (A * S).

Definition ret {S A : Type} (a : A) : ST S A := fun s => returns (a, s).

Definition raise {S A : Type} (e : exn) : ST S A := fun _ => raises e.

Definition bind {S A B : Type} (m : ST S A) (k : A -> ST S B) : ST S B :=
  fun s =>
    match m s with
    | inl e => raises e
    | inr (a, s') => k a s'
    end.

Declare Scope view_scope.
Delimit Scope view_scope with view.
Notation "x <- m ;; k" := (bind m (fun x => k))
  (at level 61, m at next level, right associativity) : view_scope.
Notation "m ;;; k" := (bind m (fun _ => k))
  (at level 61, right associativity) : view_scope.
Local Open Scope view_scope.

(** ** The module state *)

(** One entry of [requests_log]: the dictionary [current_request_data].
    [ip] and [user_agent] are [str | None] in Python. *)
Record entry : Type := mk_entry {
  timestamp : string;
  ip : option string;
  user_agent : option string;
  method : string;
  path : string;
  headers : string;
  body : pyval
}.

(** A statement of the view: it reads and updates the global list. *)
Definition M (A : Type) : Type := ST (list entry) A.

(** [requests_log.insert(0, x)] *)
Definition log_insert0 (x : entry) : M unit :=
  fun log => returns (tt, x :: log).

(** [len(requests_log)] *)
Definition log_len : M nat :=
  fun log => returns (length log, log).

(** [requests_log.pop()]: removes and returns the last item; raises
    [IndexError] on the empty list. *)
Definition log_pop : M entry :=
  fun log =>
    match rev log with
    | [] => raises IndexError
    | x :: r => returns (x, rev r)
    end.

(** Reading the global to hand it to the template. *)
Definition log_read : M (list entry) :=
  fun log => returns (log, log).

(** The log is created empty when the module is loaded. *)
Definition initial_log : list entry := [].

(** ** The Flask request object *)

(** [request.headers]: the header lines in the order received. *)
Definition Headers : Type := list (string * string).

(** [request.args] and [request.form]: Werkzeug multi-dicts, the pairs in
    the order parsed, a key possibly repeated. *)
Definition MultiDict : Type := list (string * string).

Definition ascii_lower (c : ascii) : ascii :=
  let n := nat_of_ascii c in
  if ((65 <=? n) && (n <=? 90))%nat then ascii_of_nat (n + 32) else c.

Fixpoint lower (s : string) : string :=
  match s with
  | EmptyString => EmptyString
  | String c r => String (ascii_lower c) (lower r)
  end.

(** [headers.get(key, default)]: the value of the first header whose name
    matches [key] without regard to case, [default] when there is none. *)
Fixpoint headers_get (hs : Headers) (key : string) (default : option string)
  : option string :=
  match hs with
  | [] => default
  | (k, v) :: r =>
      if String.eqb (lower k) (lower key) then Some v
      else headers_get r key default
  end.

(** [headers.items()] *)
Definition headers_items (hs : Headers) : list (string * string) := hs.

Fixpoint to_dict_from (seen : list string) (md : MultiDict)
  : list (string * string) :=
  match md with
  | [] => []
  | (k, v) :: r =>
      if existsb (String.eqb k) seen then to_dict_from seen r
      else (k, v) :: to_dict_from (k :: seen) r
  end.

(** [MultiDict.to_dict()]: a plain dictionary holding the first value of
    every key. *)
Definition to_dict (md : MultiDict) : list (string * string) :=
  to_dict_from [] md.

(** A dictionary of strings as a Python value. *)
Definition str_dict (d : list (string * string)) : pyval :=
  PyDict (map (fun kv => (fst kv, PyStr (snd kv))) d).

(** What was received. *)
Record Request : Type := mk_request {
  req_method : string;               (* request.method *)
  req_headers : Headers;             (* request.headers *)
  req_remote_addr : option string;   (* request.remote_addr, str | None *)
  req_mimetype : string;             (* request.mimetype *)
  req_mimetype_params : list (string * string);
                                     (* request.mimetype_params *)
  req_args : MultiDict;              (* request.args *)
  req_payload : string;              (* the bytes of the body, as text *)
  req_host_url : string              (* request.host_url *)
}.

(** The state of a request object: what is still unread on its input
    stream, the data [get_data] has cached and the form [request.form]
    has cached. *)
Record Input : Type := mk_input {
  unread : string;
  cached_data : option string;
  cached_form : option MultiDict
}.

(** The request object Flask has just made: nothing read, nothing
    cached. *)
Definition fresh (r : Request) : Input :=
  {| unread := req_payload r; cached_data := None; cached_form := None |}.

(** A statement that uses the request object. *)
Definition R (A : Type) : Type := ST Input A.

(** Running such a statement on the request object Flask has just made. *)
Definition fresh_run {A : Type} (r : Request) (m : R A) : Exc A :=
  match m (fresh r) with
  | inl e => raises e
  | inr (a, _) => returns a
  end.

Definition on_request {A : Type} (r : Request) (m : R A) : M A :=
  fun log =>
    match fresh_run r m with
    | inl e => raises e
    | inr a => returns (a, log)
    end.

(** What [json.loads(data)] does. *)
Inductive json_outcome : Type :=
| JsonValue (v : pyval)         (* it returns [v] *)
| JsonValueError                (* it raises [ValueError]: no JSON document *)
| JsonRaises (x : exn).         (* it raises something else, as
                                   [RecursionError] on deep nesting *)

(** What Werkzeug's form parser does on the text it is given. *)
Inductive form_outcome : Type :=
| FormFields (fields : MultiDict)
    (* it reads the text to its end and returns the fields; uploaded
       files are not among them *)
| FormValueError (rest : string)
    (* it raises [ValueError] on malformed text, having left [rest]
       unread *)
| FormRaises (x : exn).
    (* it raises something else, as [RequestEntityTooLarge] past the
       limits on parts and memory *)

(** The parsers of the libraries. *)
Class Parsers : Type := {
  (** [json.loads] on the data of the request. *)
  json_loads : string -> json_outcome;
  (** The form parser on a mimetype, a multipart boundary and a text. *)
  parse_form : string -> string -> string -> form_outcome
}.

Definition ends_with (suffix s : string) : bool :=
  let n := String.length suffix in
  let m := String.length s in
  (n <=? m)%nat && String.eqb (substring (m - n) n s) suffix.

(** [request.is_json]: the mimetype is [application/json] or
    [application/*+json]. *)
Definition is_json (r : Request) : bool :=
  let mt := req_mimetype r in
  String.eqb mt "application/json"
  || (prefix "application/" mt && ends_with "+json" mt).

(** The mimetypes the form parser handles. *)
Definition form_mimetype (mt : string) : bool :=
  String.eqb mt "multipart/form-data"
  || String.eqb mt "application/x-www-form-urlencoded".

(** [d.get(k, "")] on the parameters of the mimetype. *)
Fixpoint param_get (params : list (string * string)) (k : string) : string :=
  match params with
  | [] => ""
  | (k', v) :: r => if String.eqb k' k then v else param_get r k
  end.

(** [options.get("boundary", "")] *)
Definition boundary (r : Request) : string :=
  param_get (req_mimetype_params r) "boundary".

(** A multipart body whose content type names no boundary: the parser
    raises [ValueError] before it reads anything. *)
Definition missing_boundary (r : Request) : bool :=
  String.eqb (req_mimetype r) "multipart/form-data"
  && String.eqb (boundary r) "".

(** [request.get_data(as_text=True)]: the cached data if there is any;
    otherwise what is left on the stream, which it reads to the end and
    caches. *)
Definition get_data (r : Request) : R string :=
  fun s =>
    match cached_data s with
    | Some data => returns (data, s)
    | None =>
        returns (unread s,
                 {| unread := "";
                    cached_data := Some (unread s);
                    cached_form := cached_form s |})
    end.

(** ** The template *)

(** The text shown by the body block when [req.body] is falsy. *)
Definition placeholder : string := "No body or query parameters received.".

(** One [request-card] of the page; [card_body] is the value of the
    template expression [req.body or 'No body or ...']. *)
Record Card : Type := mk_card {
  card_method : string;
  card_path : string;
  card_timestamp : string;
  card_ip : option string;
  card_user_agent : option string;
  card_headers : string;
  card_body : pyval
}.

(** The two arms of [{% if requests_log %}]. *)
Inductive Listing : Type :=
| Cards (cs : list Card)
| EmptyState.

Record Page : Type := mk_page {
  page_request_url : string;   (* {{ request_url }} *)
  page_count : nat;            (* {{ requests_log|length }} *)
  page_listing : Listing
}.

Definition render_card (req : entry) : Card :=
  {| card_method := method req;
     card_path := path req;
     card_timestamp := timestamp req;
     card_ip := ip req;
     card_user_agent := user_agent req;
     card_headers := headers req;
     card_body := py_or (body req) (PyStr placeholder) |}.

(** [render_template_string(HTML_TEMPLATE, requests_log=..., request_url=...)] *)
Definition HTML_TEMPLATE (requests_log : list entry) (request_url : string)
  : Page :=
  {| page_request_url := request_url;
     page_count := length requests_log;
     page_listing :=
       match requests_log with
       | [] => EmptyState
       | _ :: _ => Cards (map render_card requests_log)
       end |}.

(** What Flask sends for a view that returns a string. *)
Record Response : Type := mk_response {
  status : nat;
  content_type : string;
  page : Page
}.

Definition make_response (p : Page) : Response :=
  {| status := 200; content_type := "text/html; charset=utf-8"; page := p |}.

(** ** The view *)

(** The two [@app.route] rules: the root rule supplies [path = ''], the
    other binds [path] to the part of the URL after the leading slash. *)
Inductive Route : Type :=
| RootRoute
| PathRoute (segment : string).

Definition route_path (rt : Route) : string :=
  match rt with
  | RootRoute => ""
  | PathRoute segment => segment
  end.

(** [methods=[...]] of both rules. *)
Definition route_methods : list string :=
  ["GET"; "POST"; "PUT"; "DELETE"; "PATCH"; "OPTIONS"].

Definition newline : string := String (ascii_of_nat 10) EmptyString.

(** Line 168 *)
Definition headers_str (request : Request) : string :=
  String.concat newline
    (map (fun kv => (fst kv ++ ": " ++ snd kv)%string)
       (headers_items (req_headers request))).

(** One inbound request as the application sees it: the matched rule,
    the request object and the clock. *)
Record Call : Type := mk_call {
  call_route : Route;
  call_request : Request;
  call_now : string
}.

Section Model.

Context {P : Parsers}.

(** [request.form]: the cached form if there is one. Otherwise, for a
    form mimetype, the parser is given the cached data if there is any
    and the stream if not; the form is what it returns, and the empty
    form when it fails with [ValueError], which the parser's silent mode
    swallows; any other exception leaves the accessor. For a multipart
    body without boundary the failure comes before anything is read; for
    any other mimetype the form is empty and the stream is left alone. *)
Definition request_form (r : Request) : R MultiDict :=
  fun s =>
    let keep (form : MultiDict) (left : string) : Exc (MultiDict * Input) :=
      returns (form, {| unread := left;
                        cached_data := cached_data s;
                        cached_form := Some form |}) in
    match cached_form s with
    | Some form => returns (form, s)
    | None =>
        if form_mimetype (req_mimetype r) && negb (missing_boundary r) then
          match cached_data s with
          | Some data =>
              match parse_form (req_mimetype r) (boundary r) data with
              | FormFields fields => keep fields (unread s)
              | FormValueError _ => keep [] (unread s)
              | FormRaises x => raises x
              end
          | None =>
              match parse_form (req_mimetype r) (boundary r) (unread s) with
              | FormFields fields => keep fields ""
              | FormValueError rest => keep [] rest
              | FormRaises x => raises x
              end
          end
        else keep [] (unread s)
    end.

(** [request.get_json(silent=...)]: the parsed data; when the mimetype
    is not JSON or the data is no JSON document, [None] if [silent] and
    an HTTP error otherwise. Only [ValueError] is caught: any other
    exception of the parser leaves the accessor. *)
Definition get_json (silent : bool) (r : Request) : R pyval :=
  if negb (is_json r) then
    if silent then ret PyNone else raise UnsupportedMediaType
  else
    data <- get_data r ;;
    match json_loads data with
    | JsonValue v => ret v
    | JsonValueError => if silent then ret PyNone else raise BadRequest
    | JsonRaises x => raise x
    end.

(** Lines 148-165: the value stored under ['body']. *)
Definition capture_body (request : Request) : R pyval :=
  let body := PyStr "" in
  if String.eqb (req_method request) "POST"
     || String.eqb (req_method request) "PUT"
     || String.eqb (req_method request) "PATCH"
  then
    if is_json request then
      body <- get_json true request ;;
      if is_None body then
        data <- get_data request ;; ret (PyStr data)
      else ret body
    else
      form <- request_form request ;;
      let form_data := str_dict (to_dict form) in
      if truthy form_data then ret form_data
      else data <- get_data request ;; ret (PyStr data)
  else if String.eqb (req_method request) "GET" then
    ret (str_dict (to_dict (req_args request)))
  else ret body.

(** Lines 145-179: the dictionary describing the current request; [now]
    is the formatted clock reading. *)
Definition current_request_data (path : string) (request : Request)
    (now : string) : R entry :=
  body <- capture_body request ;;
  ret {| timestamp := now;
         ip := headers_get (req_headers request) "X-Forwarded-For"
                 (req_remote_addr request);
         user_agent := headers_get (req_headers request) "User-Agent"
                         (Some "N/A");
         method := req_method request;
         path := ("/" ++ path)%string;
         headers := headers_str request;
         body := body |}.

(** Lines 139-193 *)
Definition catch_all (path : string) (request : Request) (now : string)
  : M Response :=
  data <- on_request request (current_request_data path request now) ;;
  log_insert0 data ;;;
  n <- log_len ;;
  (if (50 <? n)%nat then (_ <- log_pop ;; ret tt) else ret tt) ;;;
  requests_log <- log_read ;;
  ret (make_response (HTML_TEMPLATE requests_log (req_host_url request))).

Definition handle (c : Call) : M Response :=
  catch_all (route_path (call_route c)) (call_request c) (call_now c).

(** The requests of a run, served one after the other. *)
Fixpoint serve (calls : list Call) : M (list Response) :=
  match calls with
  | [] => ret []
  | c :: cs =>
      r <- handle c ;;
      rs <- serve cs ;;
      ret (r :: rs)
  end.

(** [c] records the entry [e]: the dictionary built for the call. *)
Definition records (c : Call) (e : entry) : Prop :=
  fresh_run (call_request c)
    (current_request_data (route_path (call_route c)) (call_request c)
       (call_now c)) = returns e.

(** The view gets as far as recording the call: nothing raises before
    line 182. *)
Definition handled (c : Call) : Prop := exists e, records c e.

End Model.
(** ** Vocabulary of the statements *)

(** The three methods whose payload is inspected. *)
Definition has_payload (request : Request) : bool :=
  String.eqb (req_method request) "POST"
  || String.eqb (req_method request) "PUT"
  || String.eqb (req_method request) "PATCH".

(** The state left by lines 182-186 once the new entry is in front. *)
Definition trimmed (l : list entry) : list entry :=
  if (50 <? length l)%nat then removelast l else l.

(** The list handed to the template by the [k]-th request of a run that
    records [entries], counting from 1 and starting on the empty log. *)
Definition snapshot (entries : list entry) (k : nat) : list entry :=
  firstn 50 (rev (firstn k entries)).

(** The response to the [k]-th request [c] of such a run. *)
Definition response_at (entries : list entry) (kc : nat * Call) : Response :=
  make_response
    (HTML_TEMPLATE (snapshot entries (fst kc))
       (req_host_url (call_request (snd kc)))).

(** [v] is the value of the first header of [hs] named [name]. *)
Definition first_header (hs : Headers) (name v : string) : Prop :=
  exists pre k post,
    hs = pre ++ (k, v) :: post /\
    lower k = lower name /\
    Forall (fun kv => lower (fst kv) <> lower name) pre.

(** No header of [hs] is named [name]. *)
Definition no_header (hs : Headers) (name : string) : Prop :=
  Forall (fun kv => lower (fst kv) <> lower name) hs.

(** The client address in the words of the specification: the forwarded
    value only when it is not empty. *)
Definition spec_client_address (request : Request) : option string :=
  match headers_get (req_headers request) "X-Forwarded-For" None with
  | Some v => if String.eqb v "" then req_remote_addr request else Some v
  | None => req_remote_addr request
  end.


(** The form parser gets to read the payload of the request. *)
Definition form_parser_runs (request : Request) : bool :=
  form_mimetype (req_mimetype request) && negb (missing_boundary request).

(** What the form parser does on the payload of the request. *)
Definition form_parse {P : Parsers} (request : Request) : form_outcome :=
  parse_form (req_mimetype request) (boundary request) (req_payload request).

(** The fields form parsing yields for a request. *)
Definition form_fields {P : Parsers} (request : Request) : MultiDict :=
  if form_parser_runs request then
    match form_parse request with
    | FormFields fields => fields
    | _ => []
    end
  else [].

(** What is left on the stream once [request.form] has been read. *)
Definition left_after_form {P : Parsers} (request : Request) : string :=
  if form_parser_runs request then
    match form_parse request with
    | FormValueError rest => rest
    | _ => ""
    end
  else req_payload request.

(** The exception that leaves the parser the view runs on the request,
    if there is one: the JSON parser for a POST, PUT or PATCH declared
    as JSON, the form parser for any other POST, PUT or PATCH. *)
Definition parser_error {P : Parsers} (request : Request) : option exn :=
  if String.eqb (req_method request) "POST"
     || String.eqb (req_method request) "PUT"
     || String.eqb (req_method request) "PATCH"
  then
    if is_json request then
      match json_loads (req_payload request) with
      | JsonRaises x => Some x
      | _ => None
      end
    else if form_parser_runs request then
      match form_parse request with
      | FormRaises x => Some x
      | _ => None
      end
    else None
  else None.

(** The body of a request that is not JSON in the words of the
    specification: the form fields if there is any, the payload text
    otherwise. *)
Definition spec_form_body {P : Parsers} (request : Request) : pyval :=
  match form_fields request with
  | [] => PyStr (req_payload request)
  | _ :: _ => str_dict (to_dict (form_fields request))
  end.

(** A body that is empty or absent. *)
Definition empty_body (v : pyval) : Prop :=
  v = PyStr "" \/ v = PyDict [] \/ v = PyList [] \/ v = PyNone.

(** The JSON values Python counts as false, [null] apart. *)
Definition falsy_json : list pyval :=
  [PyInt 0; PyBool false; PyStr ""; PyDict []; PyList []].

(** ** Sample requests *)

Definition quote : string := String (ascii_of_nat 34) EmptyString.

Definition crlf : string :=
  String (ascii_of_nat 13) (String (ascii_of_nat 10) EmptyString).

(** A JSON object with the one member [x], of value 1. *)
Definition object_x_1 : string := ("{" ++ quote ++ "x" ++ quote ++ ":1}")%string.

(** A multipart body that carries one file and no field. *)
Definition one_file_upload : string :=
  ("--frontier" ++ crlf
   ++ "Content-Disposition: form-data; name=" ++ quote ++ "file" ++ quote
   ++ "; filename=" ++ quote ++ "a.txt" ++ quote ++ crlf
   ++ "Content-Type: text/plain" ++ crlf ++ crlf
   ++ "hello" ++ crlf
   ++ "--frontier--" ++ crlf)%string.

Fixpoint repeat_string (s : string) (n : nat) : string :=
  match n with
  | O => EmptyString
  | S n' => (s ++ repeat_string s n')%string
  end.

(** A thousand opening brackets: more nesting than [json.loads] can
    follow. *)
Definition deep_nesting : string := repeat_string "[" 1000.

(** One part of a multipart body: the field [f] of value 1. *)
Definition one_part : string :=
  ("--frontier" ++ crlf
   ++ "Content-Disposition: form-data; name=" ++ quote ++ "f" ++ quote ++ crlf
   ++ crlf ++ "1" ++ crlf)%string.

(** A multipart body of 1001 parts, one more than the parser accepts. *)
Definition many_parts : string :=
  (repeat_string one_part 1001 ++ "--frontier--" ++ crlf)%string.

(** What the two parsers do on the payloads of the samples below; every
    other text is taken to be no JSON document and to hold no field. *)
Definition sample_parsers : Parsers :=
  {| json_loads := fun data =>
       if String.eqb data "null" then JsonValue PyNone
       else if String.eqb data "0" then JsonValue (PyInt 0)
       else if String.eqb data object_x_1
       then JsonValue (PyDict [("x", PyInt 1)])
       else if String.eqb data deep_nesting then JsonRaises RecursionError
       else JsonValueError;
     parse_form := fun mt bd data =>
       if String.eqb mt "application/x-www-form-urlencoded"
          && String.eqb data "a=1&b=2"
       then FormFields [("a", "1"); ("b", "2")]
       else if String.eqb data many_parts
       then FormRaises RequestEntityTooLarge
       else FormFields [] |}.

(** A request with no payload, no query string and the headers a
    command-line client sends. *)
Definition sample (m : string) : Request :=
  {| req_method := m;
     req_headers := [("Host", "localhost:5000");
                     ("User-Agent", "curl/8.5.0");
                     ("Accept", "*/*")];
     req_remote_addr := Some "127.0.0.1";
     req_mimetype := "";
     req_mimetype_params := [];
     req_args := [];
     req_payload := "";
     req_host_url := "http://localhost:5000/" |}.

Definition with_header (k v : string) (r : Request) : Request :=
  {| req_method := req_method r;
     req_headers := req_headers r ++ [(k, v)];
     req_remote_addr := req_remote_addr r;
     req_mimetype := req_mimetype r;
     req_mimetype_params := req_mimetype_params r;
     req_args := req_args r;
     req_payload := req_payload r;
     req_host_url := req_host_url r |}.

Definition with_args (args : MultiDict) (r : Request) : Request :=
  {| req_method := req_method r;
     req_headers := req_headers r;
     req_remote_addr := req_remote_addr r;
     req_mimetype := req_mimetype r;
     req_mimetype_params := req_mimetype_params r;
     req_args := args;
     req_payload := req_payload r;
     req_host_url := req_host_url r |}.

(** A request carrying [payload] declared as [mimetype]. *)
Definition with_payload (mimetype payload : string) (r : Request) : Request :=
  {| req_method := req_method r;
     req_headers := req_headers r ++ [("Content-Type", mimetype)];
     req_remote_addr := req_remote_addr r;
     req_mimetype := mimetype;
     req_mimetype_params := [];
     req_args := req_args r;
     req_payload := payload;
     req_host_url := req_host_url r |}.

(** A request carrying the multipart [payload] whose parts are
    separated by the boundary [bd]. *)
Definition with_multipart (bd payload : string) (r : Request) : Request :=
  {| req_method := req_method r;
     req_headers :=
       req_headers r
       ++ [("Content-Type", ("multipart/form-data; boundary=" ++ bd)%string)];
     req_remote_addr := req_remote_addr r;
     req_mimetype := "multipart/form-data";
     req_mimetype_params := [("boundary", bd)];
     req_args := req_args r;
     req_payload := payload;
     req_host_url := req_host_url r |}.

Definition call_at (rt : Route) (r : Request) : Call :=
  {| call_route := rt; call_request := r; call_now := "2024-05-01 12:00:00" |}.

(** A GET whose [X-Forwarded-For] header is present and empty. *)
Definition empty_forwarded_for : Call :=
  call_at RootRoute (with_header "X-Forwarded-For" "" (sample "GET")).

(** A POST behind a proxy that forwards for [9.9.9.9]. *)
Definition forwarded_post : Call :=
  call_at (PathRoute "hook")
    (with_header "X-Forwarded-For" "9.9.9.9" (sample "POST")).

(** A POST of the four characters [null] declared as JSON. *)
Definition post_null : Call :=
  call_at (PathRoute "hook")
    (with_payload "application/json" "null" (sample "POST")).

(** A POST of the malformed [{x:}] declared as JSON. *)
Definition post_malformed : Call :=
  call_at (PathRoute "hook")
    (with_payload "application/json" "{x:}" (sample "POST")).

(** A POST of [object_x_1] declared as JSON. *)
Definition post_object : Call :=
  call_at (PathRoute "hook")
    (with_payload "application/json" object_x_1 (sample "POST")).

(** A POST of the one character [0] declared as JSON. *)
Definition post_zero : Call :=
  call_at (PathRoute "hook")
    (with_payload "application/json" "0" (sample "POST")).

(** A POST of the form [a=1&b=2]. *)
Definition post_form : Call :=
  call_at (PathRoute "hook")
    (with_payload "application/x-www-form-urlencoded" "a=1&b=2"
       (sample "POST")).

(** A POST of a form body that holds a separator and no field. *)
Definition post_no_field : Call :=
  call_at (PathRoute "hook")
    (with_payload "application/x-www-form-urlencoded" "&" (sample "POST")).

(** A POST that uploads one file and no field. *)
Definition post_upload : Call :=
  call_at (PathRoute "upload")
    (with_multipart "frontier" one_file_upload (sample "POST")).

(** The same upload sent with a content type that names no boundary. *)
Definition post_upload_no_boundary : Call :=
  call_at (PathRoute "upload")
    (with_payload "multipart/form-data" one_file_upload (sample "POST")).

(** A POST of 1001 form parts. *)
Definition post_many_parts : Call :=
  call_at (PathRoute "upload")
    (with_multipart "frontier" many_parts (sample "POST")).

(** A POST of [deep_nesting] declared as JSON. *)
Definition post_deep : Call :=
  call_at (PathRoute "hook")
    (with_payload "application/json" deep_nesting (sample "POST")).

(** A PUT of plain text. *)
Definition put_text : Call :=
  call_at (PathRoute "notes/7") (with_payload "text/plain" "hello" (sample "PUT")).

(** [GET /foo?a=1&b=2] *)
Definition get_foo : Call :=
  call_at (PathRoute "foo") (with_args [("a", "1"); ("b", "2")] (sample "GET")).

(** [GET /] *)
Definition get_root : Call := call_at RootRoute (sample "GET").

(** [DELETE /items/3] *)
Definition delete_item : Call := call_at (PathRoute "items/3") (sample "DELETE").

(** The [i]-th request of a numbered run: a GET of a one-letter path. *)
Definition numbered (i : nat) : Call :=
  call_at (PathRoute (String (ascii_of_nat (64 + i)) EmptyString))
    (sample "GET").

Definition path_of_letter (i : nat) : string :=
  String "/" (String (ascii_of_nat (64 + i)) EmptyString).

(** The counts shown by the pages of a run and the paths it leaves in
    the log. *)
Definition run_summary {P : Parsers} (calls : list Call)
  : option (list nat * list string) :=
  match serve calls initial_log with
  | inl _ => None
  | inr (resps, log) =>
      Some (map (fun r => page_count (page r)) resps, map path log)
  end.

(** ** Vocabulary of the further properties *)

(** [md.get(k)]: the first value of the key [k] in a multi-dict. *)
Fixpoint first_value (md : MultiDict) (k : string) : option string :=
  match md with
  | [] => None
  | (k', v) :: r => if String.eqb k' k then Some v else first_value r k
  end.

(** The line of the headers block written for one header (line 168). *)
Definition header_line (kv : string * string) : string :=
  (fst kv ++ ": " ++ snd kv)%string.

Definition is_newline (c : ascii) : bool := Ascii.eqb c (ascii_of_nat 10).

Fixpoint has_newline (s : string) : bool :=
  match s with
  | EmptyString => false
  | String c r => is_newline c || has_newline r
  end.

(** Python's [s.split('\n')]: the pieces of [s] between line feeds. *)
Fixpoint lines (s : string) : list string :=
  match s with
  | EmptyString => [EmptyString]
  | String c r =>
      if is_newline c then EmptyString :: lines r
      else match lines r with
           | [] => [String c EmptyString]
           | l :: ls => String c l :: ls
           end
  end.

(** What every entry of the log satisfies: a body that is not [None], so
    that the template never prints [None], and a path that starts with a
    slash. *)
Definition well_formed (e : entry) : Prop :=
  body e <> PyNone /\ prefix "/" (path e) = true.

(** A card shows the fields of an entry. *)
Definition shows (e : entry) (k : Card) : Prop :=
  card_method k = method e /\
  card_path k = path e /\
  card_timestamp k = timestamp e /\
  card_ip k = ip e /\
  card_user_agent k = user_agent e /\
  card_headers k = headers e /\
  card_body k = (if truthy (body e) then body e else PyStr placeholder).

(** A GET that sends no [User-Agent] header. *)
Definition get_without_agent : Call :=
  call_at RootRoute
    {| req_method := "GET";
       req_headers := [("Host", "localhost:5000"); ("Accept", "*/*")];
       req_remote_addr := Some "127.0.0.1";
       req_mimetype := "";
       req_mimetype_params := [];
       req_args := [];
       req_payload := "";
       req_host_url := "http://localhost:5000/" |}.

(** [GET /search?a=1&b=2&a=3] *)
Definition get_repeated : Call :=
  call_at (PathRoute "search")
    (with_args [("a", "1"); ("b", "2"); ("a", "3")] (sample "GET")).

(** Parsers that read JSON as [sample_parsers] do and find the one
    field [x] in every form payload. *)
Definition one_field_parsers : Parsers :=
  {| json_loads := @json_loads sample_parsers;
     parse_form := fun _ _ _ => FormFields [("x", "y")] |}.

(** A log of 60 entries, more than the view ever builds. *)
Definition oversized_log : list entry :=
  repeat {| timestamp := "2024-05-01 11:00:00";
            ip := Some "127.0.0.1";
            user_agent := Some "N/A";
            method := "GET";
            path := "/old";
            headers := "";
            body := PyStr "" |} 60.

(** * Properties *)

Section Properties.

Context {P : Parsers}.

(** ** Running a statement *)

Lemma bind_returns {S A B : Type} (m : ST S A) (k : A -> ST S B)
    (s s' : S) (a : A) :
  m s = returns (a, s') -> bind m k s = k a s'.
Proof. unfold bind. now intros ->. Qed.

Lemma returns_inj {A : Type} (a b : A) : returns a = returns b -> a = b.
Proof. unfold returns. congruence. Qed.

(** ** The recorded body, branch by branch *)

Lemma get_json_silent_run (request : Request) :
  is_json request = true ->
  fresh_run request (get_json true request) =
    match json_loads (req_payload request) with
    | JsonValue v => returns v
    | JsonValueError => returns PyNone
    | JsonRaises x => raises x
    end.
Proof.
  intros Hj. unfold fresh_run, get_json. rewrite Hj. cbn [negb].
  unfold bind, get_data, fresh, ret, raise, returns, raises.
  cbn [cached_data unread]. cbv beta iota.
  destruct (json_loads (req_payload request)); reflexivity.
Qed.

Lemma capture_json (request : Request) :
  has_payload request = true ->
  is_json request = true ->
  fresh_run request (capture_body request) =
    match json_loads (req_payload request) with
    | JsonValue v =>
        returns (if is_None v then PyStr (req_payload request) else v)
    | JsonValueError => returns (PyStr (req_payload request))
    | JsonRaises x => raises x
    end.
Proof.
  intros Hm Hj. unfold has_payload in Hm.
  unfold fresh_run, capture_body, get_json. rewrite Hm, Hj. cbn [negb].
  unfold bind, get_data, fresh, ret, raise, returns, raises.
  cbn [cached_data unread]. cbv beta iota.
  destruct (json_loads (req_payload request)) as [v | | x]; cbv beta iota.
  - destruct (is_None v); reflexivity.
  - reflexivity.
  - reflexivity.
Qed.

Lemma capture_non_json (request : Request) :
  has_payload request = true ->
  is_json request = false ->
  fresh_run request (capture_body request) =
    if form_parser_runs request then
      match form_parse request with
      | FormFields [] => returns (PyStr "")
      | FormFields (f :: fields) => returns (str_dict (to_dict (f :: fields)))
      | FormValueError rest => returns (PyStr rest)
      | FormRaises x => raises x
      end
    else returns (PyStr (req_payload request)).
Proof.
  intros Hm Hj. unfold has_payload in Hm.
  unfold fresh_run, capture_body, request_form, form_parser_runs, form_parse.
  rewrite Hm, Hj.
  unfold bind, get_data, fresh, ret, returns, raises.
  cbn [cached_form cached_data unread].
  destruct (form_mimetype (req_mimetype request)
            && negb (missing_boundary request)); cbv beta iota zeta.
  - destruct (parse_form (req_mimetype request) (boundary request)
                (req_payload request)) as [[| [k v] fields] | rest | x];
      reflexivity.
  - reflexivity.
Qed.

Lemma capture_get (request : Request) :
  req_method request = "GET" ->
  fresh_run request (capture_body request) =
    returns (str_dict (to_dict (req_args request))).
Proof.
  intros Hm. unfold fresh_run, capture_body. rewrite Hm. reflexivity.
Qed.

Lemma capture_other (request : Request) :
  has_payload request = false ->
  req_method request <> "GET" ->
  fresh_run request (capture_body request) = returns (PyStr "").
Proof.
  intros Hm Hg. unfold has_payload in Hm. apply String.eqb_neq in Hg.
  unfold fresh_run, capture_body. rewrite Hm, Hg. reflexivity.
Qed.

(** The view raises before it records exactly when the parser it runs
    raises something the silent modes do not swallow. *)
Lemma capture_body_outcome (request : Request) :
  match parser_error request with
  | Some x => fresh_run request (capture_body request) = raises x
  | None => exists b, fresh_run request (capture_body request) = returns b
  end.
Proof.
  unfold parser_error. fold (has_payload request).
  destruct (has_payload request) eqn:Hm.
  - destruct (is_json request) eqn:Hj.
    + rewrite (capture_json _ Hm Hj).
      destruct (json_loads (req_payload request)); eauto.
    + rewrite (capture_non_json _ Hm Hj).
      destruct (form_parser_runs request); [| eauto].
      destruct (form_parse request) as [[| f fields] | rest | x]; eauto.
  - destruct (String.eqb (req_method request) "GET") eqn:Hg.
    + apply String.eqb_eq in Hg. rewrite (capture_get _ Hg). eauto.
    + apply String.eqb_neq in Hg. rewrite (capture_other _ Hm Hg). eauto.
Qed.

(** The entry of a request is the one described by lines 171-179 around
    the body that [capture_body] computes on the fresh request object. *)
Lemma current_request_data_run (p : string) (request : Request)
    (now : string) :
  fresh_run request (current_request_data p request now) =
    match fresh_run request (capture_body request) with
    | inl x => raises x
    | inr b =>
        returns {| timestamp := now;
                   ip := headers_get (req_headers request) "X-Forwarded-For"
                           (req_remote_addr request);
                   user_agent := headers_get (req_headers request)
                                   "User-Agent" (Some "N/A");
                   method := req_method request;
                   path := ("/" ++ p)%string;
                   headers := headers_str request;
                   body := b |}
    end.
Proof.
  unfold fresh_run, current_request_data, bind.
  destruct (capture_body request (fresh request)) as [x | [b s]];
    reflexivity.
Qed.

(** The entry of a call, field by field. *)
Lemma records_entry (c : Call) (e : entry) :
  records c e ->
  exists b,
    fresh_run (call_request c) (capture_body (call_request c)) = returns b /\
    e = {| timestamp := call_now c;
           ip := headers_get (req_headers (call_request c)) "X-Forwarded-For"
                   (req_remote_addr (call_request c));
           user_agent := headers_get (req_headers (call_request c))
                           "User-Agent" (Some "N/A");
           method := req_method (call_request c);
           path := ("/" ++ route_path (call_route c))%string;
           headers := headers_str (call_request c);
           body := b |}.
Proof.
  unfold records. rewrite current_request_data_run.
  destruct (fresh_run (call_request c) (capture_body (call_request c)))
    as [x | b]; [discriminate |].
  intros H. apply returns_inj in H. eauto.
Qed.

Lemma records_fields (c : Call) (e : entry) :
  records c e ->
  fresh_run (call_request c) (capture_body (call_request c))
    = returns (body e) /\
  path e = ("/" ++ route_path (call_route c))%string /\
  ip e = headers_get (req_headers (call_request c)) "X-Forwarded-For"
           (req_remote_addr (call_request c)).
Proof.
  intros He. destruct (records_entry c e He) as (b & Hb & ->).
  cbn [body path ip]. repeat split. exact Hb.
Qed.

Lemma records_functional (c : Call) (e e' : entry) :
  records c e -> records c e' -> e = e'.
Proof.
  unfold records. intros H H'. rewrite H in H'. exact (returns_inj _ _ H').
Qed.

(** ** Which requests are recorded *)

Lemma handled_iff (c : Call) :
  handled c <-> parser_error (call_request c) = None.
Proof.
  unfold handled, records. rewrite current_request_data_run.
  pose proof (capture_body_outcome (call_request c)) as H.
  destruct (parser_error (call_request c)) as [x |].
  - rewrite H. split; [intros [e He]; discriminate | discriminate].
  - destruct H as [b ->]. split; [reflexivity |].
    intros _. eexists. reflexivity.
Qed.

Lemma handled_without_payload (c : Call) :
  has_payload (call_request c) = false -> handled c.
Proof.
  intros Hm. apply handled_iff. unfold parser_error.
  fold (has_payload (call_request c)). now rewrite Hm.
Qed.

Lemma handled_plain (c : Call) :
  is_json (call_request c) = false ->
  form_parser_runs (call_request c) = false ->
  handled c.
Proof.
  intros Hj Hf. apply handled_iff. unfold parser_error.
  rewrite Hj, Hf. now destruct (_ || _).
Qed.

(** ** The list operations *)

Lemma log_pop_last (l : list entry) (x : entry) :
  log_pop (l ++ [x]) = returns (x, l).
Proof.
  unfold log_pop. rewrite rev_app_distr. cbn [rev app].
  now rewrite rev_involutive.
Qed.

Lemma trimmed_firstn (l : list entry) :
  (length l <= 51)%nat -> trimmed l = firstn 50 l.
Proof.
  intros H. unfold trimmed.
  destruct (Nat.ltb_spec 50 (length l)).
  - rewrite removelast_firstn_len.
    replace (pred (length l)) with 50%nat by lia. reflexivity.
  - symmetry. apply firstn_all2. assumption.
Qed.

Lemma trimmed_head (x : entry) (l : list entry) :
  exists tail, trimmed (x :: l) = x :: tail.
Proof.
  unfold trimmed.
  destruct (Nat.ltb_spec 50 (length (x :: l))) as [H | H]; [| eauto].
  destruct l as [| y l]; [cbn [length] in H; lia |].
  cbn [removelast]. eauto.
Qed.

Lemma trimmed_cons (x : entry) (l : list entry) :
  trimmed (x :: l)
  = x :: (if (50 <=? length l)%nat then removelast l else l).
Proof.
  unfold trimmed. cbn [length].
  destruct (Nat.ltb_spec 50 (S (length l)));
    destruct (Nat.leb_spec 50 (length l)); try lia; [| reflexivity].
  destruct l as [| y l]; [cbn [length] in *; lia | reflexivity].
Qed.

(** One run of the view on any log: it raises what the capture raises,
    before it touches the log; otherwise it inserts, trims, renders and
    returns. *)
Lemma catch_all_run (p : string) (request : Request) (now : string)
    (log : list entry) :
  catch_all p request now log =
    match fresh_run request (current_request_data p request now) with
    | inl x => raises x
    | inr data =>
        returns (make_response
                   (HTML_TEMPLATE (trimmed (data :: log))
                      (req_host_url request)),
                 trimmed (data :: log))
    end.
Proof.
  unfold catch_all, bind, on_request.
  destruct (fresh_run request (current_request_data p request now))
    as [x | data]; [reflexivity |].
  unfold log_insert0, log_len, log_read, trimmed, ret, returns.
  cbv beta iota.
  destruct (Nat.ltb_spec 50 (length (data :: log))) as [H | H];
    [| reflexivity].
  destruct (exists_last (l := data :: log)) as (l' & x & E);
    [discriminate |].
  rewrite E, log_pop_last, removelast_last. reflexivity.
Qed.

Lemma handle_run (c : Call) (e : entry) (log : list entry) :
  records c e ->
  handle c log =
    returns (make_response
               (HTML_TEMPLATE (trimmed (e :: log))
                  (req_host_url (call_request c))),
             trimmed (e :: log)).
Proof.
  unfold records, handle. intros He. now rewrite catch_all_run, He.
Qed.

(** Handling a recorded call on any log returns a response with status
    200 whose page renders the updated log, the entry of the call on
    top. *)
Lemma handle_returns (c : Call) (log : list entry) :
  handled c ->
  exists e r log' tail,
    records c e /\
    handle c log = returns (r, log') /\
    log' = e :: tail /\
    status r = 200%nat /\
    content_type r = "text/html; charset=utf-8" /\
    page r = HTML_TEMPLATE log' (req_host_url (call_request c)) /\
    page_listing (page r) = Cards (render_card e :: map render_card tail).
Proof.
  intros [e He].
  pose proof (handle_run c e log He) as Hrun.
  destruct (trimmed_head e log) as [tail E]. rewrite E in Hrun.
  exists e, (make_response
               (HTML_TEMPLATE (e :: tail) (req_host_url (call_request c)))),
    (e :: tail), tail.
  repeat split; assumption.
Qed.
(** ** Runs of the application *)

Lemma serve_snoc (calls : list Call) (c : Call) (log : list entry) :
  serve (calls ++ [c]) log =
  (rs <- serve calls ;; r <- handle c ;; ret (rs ++ [r])) log.
Proof.
  revert log. induction calls as [| c0 calls IH]; intros log; simpl;
    unfold bind, ret, returns, raises in *.
  - destruct (handle c log) as [e | [r log']]; reflexivity.
  - destruct (handle c0 log) as [e | [r0 log0]]; [reflexivity |].
    rewrite IH.
    destruct (serve calls log0) as [e | [rs log1]]; [reflexivity |].
    destruct (handle c log1) as [e | [r log2]]; reflexivity.
Qed.

Lemma combine_snoc {A B : Type} (l1 : list A) (l2 : list B) (a : A) (b : B) :
  length l1 = length l2 ->
  combine (l1 ++ [a]) (l2 ++ [b]) = combine l1 l2 ++ [(a, b)].
Proof.
  revert l2. induction l1 as [| x l1 IH]; intros [| y l2] H;
    simpl in *; try discriminate; [reflexivity |].
  f_equal. apply IH. congruence.
Qed.

Lemma map_fst_combine_seq {A B : Type} (f : nat -> B) (l : list A) (s : nat) :
  map (fun kc => f (fst kc)) (combine (seq s (length l)) l) =
  map f (seq s (length l)).
Proof.
  revert s. induction l as [| x l IH]; intros s; [reflexivity |].
  cbn [length seq combine map fst]. now rewrite IH.
Qed.

Lemma firstn_cons_firstn {A : Type} (n : nat) (x : A) (l : list A) :
  firstn (S n) (x :: firstn (S n) l) = firstn (S n) (x :: l).
Proof.
  rewrite !firstn_cons, firstn_firstn. f_equal. f_equal. lia.
Qed.

Lemma snapshot_snoc (entries : list entry) (e : entry) (k : nat) :
  (k <= length entries)%nat -> snapshot (entries ++ [e]) k = snapshot entries k.
Proof.
  intros H. unfold snapshot. rewrite firstn_app.
  replace (k - length entries)%nat with 0%nat by lia.
  cbn [firstn]. now rewrite app_nil_r.
Qed.

Lemma snapshot_all (entries : list entry) :
  snapshot entries (length entries) = firstn 50 (rev entries).
Proof. unfold snapshot. now rewrite firstn_all. Qed.

Lemma snapshot_length (entries : list entry) (k : nat) :
  (k <= length entries)%nat -> length (snapshot entries k) = Nat.min k 50.
Proof.
  intros H. unfold snapshot.
  rewrite length_firstn, length_rev, length_firstn. lia.
Qed.

Lemma handled_all (calls : list Call) :
  Forall handled calls -> exists entries, Forall2 records calls entries.
Proof.
  intros H. induction H as [| c calls [e He] _ [entries IH]].
  - exists []. constructor.
  - exists (e :: entries). now constructor.
Qed.

(** A run of recorded requests from the empty log answers every request
    and leaves the 50 newest entries, newest first. *)
Lemma serve_from_empty (calls : list Call) (entries : list entry) :
  Forall2 records calls entries ->
  serve calls initial_log =
    returns (map (response_at entries)
               (combine (seq 1 (length calls)) calls),
             firstn 50 (rev entries)).
Proof.
  revert entries. induction calls as [| c calls IH] using rev_ind;
    intros entries HF.
  - inversion HF. reflexivity.
  - apply Forall2_app_inv_l in HF.
    destruct HF as (front & last & HF & Hlast & ->).
    inversion Hlast as [| c' e l1 l2 He Hnil]; subst.
    inversion Hnil; subst.
    pose proof (Forall2_length HF) as Hlen.
    rewrite serve_snoc.
    erewrite bind_returns by exact (IH front HF).
    erewrite bind_returns by exact (handle_run c e _ He). unfold ret.
    rewrite trimmed_firstn
      by (cbn [length]; rewrite length_firstn; lia).
    rewrite (firstn_cons_firstn 49), rev_unit.
    f_equal. f_equal.
    rewrite length_app, Nat.add_1_r, seq_S.
    rewrite combine_snoc by (now rewrite length_seq).
    rewrite map_app. f_equal.
    + apply map_ext_in. intros [k c'] Hin.
      apply in_combine_l in Hin. apply in_seq in Hin.
      unfold response_at. cbn [fst snd].
      rewrite snapshot_snoc by lia. reflexivity.
    + unfold response_at. cbn [map fst snd]. f_equal. f_equal. f_equal.
      replace (1 + length calls)%nat with (length (front ++ [e]))
        by (rewrite length_app, Nat.add_1_r; lia).
      rewrite snapshot_all, rev_unit. reflexivity.
Qed.

(** ** The bounded log *)

(** C1. However many requests are handled from the empty log, the run
    returns; the log then holds [min N 50] entries, which is at most 50,
    and the count shown by the page answering the [k]-th request is
    [min k 50]: the cap is restored by the end of every insertion. *)
Theorem requests_log_length_is_min (calls : list Call) :
  Forall handled calls ->
  exists resps log,
    serve calls initial_log = returns (resps, log) /\
    length log = Nat.min (length calls) 50 /\
    (length log <= 50)%nat /\
    map (fun r => page_count (page r)) resps =
      map (fun k => Nat.min k 50) (seq 1 (length calls)).
Proof.
  intros Hall. destruct (handled_all calls Hall) as (entries & HF).
  pose proof (serve_from_empty calls entries HF) as Hrun.
  pose proof (Forall2_length HF) as Hlen.
  eexists _, _. split; [exact Hrun |].
  rewrite length_firstn, length_rev, <- Hlen.
  repeat split; try lia.
  rewrite map_map.
  rewrite <- (map_fst_combine_seq (fun k => Nat.min k 50) calls 1).
  apply map_ext_in. intros [k c] Hin.
  apply in_combine_l in Hin. apply in_seq in Hin.
  unfold response_at, make_response, HTML_TEMPLATE. cbn [page page_count fst].
  apply snapshot_length. lia.
Qed.

(** C2. Handling a request on any log puts its entry at index 0 of the
    log and of the rendered cards; and 51 requests [c1, cs] handled from
    the empty log leave exactly the entries of the last 50, newest first,
    which is also what the page answering the 51st shows. *)
Theorem newest_first_oldest_evicted :
  (forall (c : Call) (log : list entry),
      handled c ->
      exists data r log' cards,
        records c data /\
        handle c log = returns (r, log') /\
        nth_error log' 0 = Some data /\
        page_listing (page r) = Cards (render_card data :: cards)) /\
  (forall (c1 : Call) (cs : list Call),
      length cs = 50%nat ->
      Forall handled (c1 :: cs) ->
      exists e1 es resps r51,
        records c1 e1 /\ Forall2 records cs es /\
        serve (c1 :: cs) initial_log = returns (resps, rev es) /\
        nth_error resps 50 = Some r51 /\
        page_listing (page r51) = Cards (map render_card (rev es))).
Proof.
  split.
  - intros c log Hc.
    destruct (handle_returns c log Hc)
      as (e & r & log' & tail & He & Hrun & -> & _ & _ & _ & Hl).
    exists e, r, (e :: tail), (map render_card tail).
    repeat split; assumption.
  - intros c1 cs Hcs Hall.
    destruct (handled_all _ Hall) as (entries & HF).
    pose proof (serve_from_empty _ _ HF) as Hrun.
    inversion HF as [| c1' e1 cs' es H1 Hes]; subst.
    pose proof (Forall2_length Hes) as Hlen.
    assert (Hsnap : firstn 50 (rev (e1 :: es)) = rev es).
    { cbn [rev]. rewrite firstn_app.
      replace (50 - length (rev es))%nat with 0%nat
        by (rewrite length_rev; lia).
      rewrite firstn_all2 by (rewrite length_rev; lia).
      cbn [firstn]. apply app_nil_r. }
    rewrite Hsnap in Hrun.
    destruct (exists_last (l := c1 :: cs)) as (front & c51 & E);
      [discriminate |].
    assert (Hfront : length front = 50%nat).
    { apply (f_equal (@length Call)) in E.
      rewrite length_app in E. cbn [length] in E. lia. }
    exists e1, es,
      (map (response_at (e1 :: es))
         (combine (seq 1 (length (c1 :: cs))) (c1 :: cs))),
      (response_at (e1 :: es) (51%nat, c51)).
    repeat split; try assumption.
    + rewrite E, length_app, Nat.add_1_r, seq_S.
      rewrite combine_snoc by (now rewrite length_seq).
      rewrite map_app, nth_error_app2
        by (rewrite length_map, length_combine, length_seq; lia).
      rewrite length_map, length_combine, length_seq, Hfront.
      reflexivity.
    + unfold response_at, make_response, HTML_TEMPLATE.
      cbn [page page_listing fst].
      replace (snapshot (e1 :: es) 51) with (rev es).
      * destruct (rev es) as [| x l] eqn:Er; [| reflexivity].
        apply (f_equal (@length entry)) in Er.
        rewrite length_rev in Er. cbn [length] in Er. lia.
      * unfold snapshot.
        rewrite (firstn_all2 (n := 51) (e1 :: es))
          by (cbn [length]; lia).
        symmetry. exact Hsnap.
Qed.

(** ** The value printed by the body block *)

Lemma card_body_truthy (e : entry) : truthy (card_body (render_card e)) = true.
Proof.
  unfold render_card, py_or. cbn [card_body].
  destruct (truthy (body e)) eqn:E; [exact E | reflexivity].
Qed.

Lemma card_body_falsy (e : entry) :
  truthy (body e) = false -> card_body (render_card e) = PyStr placeholder.
Proof.
  intros H. unfold render_card, py_or. cbn [card_body]. now rewrite H.
Qed.

Lemma empty_body_falsy (v : pyval) : empty_body v -> truthy v = false.
Proof. intros [-> | [-> | [-> | ->]]]; reflexivity. Qed.

(** ** The client address *)

Lemma headers_get_first (hs : Headers) (name v : string)
    (default : option string) :
  first_header hs name v -> headers_get hs name default = Some v.
Proof.
  intros (pre & k & post & -> & Hk & Hpre).
  induction Hpre as [| [k' v'] pre Hne _ IH]; simpl.
  - apply String.eqb_eq in Hk. now rewrite Hk.
  - apply String.eqb_neq in Hne. simpl in Hne. now rewrite Hne.
Qed.

Lemma headers_get_absent (hs : Headers) (name : string)
    (default : option string) :
  no_header hs name -> headers_get hs name default = default.
Proof.
  intros H. induction H as [| [k v] hs Hne _ IH]; simpl; [reflexivity |].
  apply String.eqb_neq in Hne. simpl in Hne. now rewrite Hne.
Qed.

(** C3, amended. The recorded address is the value of the first
    [X-Forwarded-For] header whenever one is present, empty or not, and
    the peer address when none is; so it agrees with the specification
    whenever the forwarded value is not empty, and a forwarded
    [9.9.9.9] is recorded whatever the peer address. *)
Theorem client_address (c : Call) :
  handled c ->
  exists e,
    records c e /\
    (forall v, first_header (req_headers (call_request c)) "X-Forwarded-For" v ->
               ip e = Some v) /\
    (no_header (req_headers (call_request c)) "X-Forwarded-For" ->
     ip e = req_remote_addr (call_request c)) /\
    (forall v, first_header (req_headers (call_request c)) "X-Forwarded-For" v ->
               v <> "" -> ip e = spec_client_address (call_request c)) /\
    (first_header (req_headers (call_request c)) "X-Forwarded-For" "9.9.9.9" ->
     ip e = Some "9.9.9.9").
Proof.
  intros [e He]. exists e.
  split; [exact He |].
  destruct (records_fields c e He) as (_ & _ & Hip).
  rewrite Hip. repeat split.
  - intros v Hv. now apply headers_get_first.
  - intros Hn. now apply headers_get_absent.
  - intros v Hv Hne. unfold spec_client_address.
    rewrite !(headers_get_first _ _ _ _ Hv).
    apply String.eqb_neq in Hne. now rewrite Hne.
  - intros Hv. now apply headers_get_first.
Qed.

(** ** Dictionaries made of multi-dicts *)

Lemma existsb_eqb_In (k : string) (seen : list string) :
  existsb (String.eqb k) seen = true <-> In k seen.
Proof.
  rewrite existsb_exists. split.
  - intros (x & Hin & He). apply String.eqb_eq in He. now subst.
  - intros H. exists k. split; [exact H | apply String.eqb_refl].
Qed.

Lemma to_dict_from_In (seen : list string) (md : MultiDict) (k v : string) :
  In (k, v) (to_dict_from seen md) <->
  ~ In k seen /\ first_value md k = Some v.
Proof.
  revert seen. induction md as [| [k' v'] r IH]; intros seen;
    cbn [to_dict_from first_value].
  - split; [intros [] | intros [_ H]; discriminate].
  - destruct (existsb (String.eqb k') seen) eqn:E.
    + rewrite IH. apply existsb_eqb_In in E.
      destruct (String.eqb_spec k' k) as [-> | Hne]; [| reflexivity].
      split; intros [H _]; contradiction.
    + assert (Hk' : ~ In k' seen).
      { rewrite <- existsb_eqb_In. congruence. }
      cbn [In]. rewrite IH. cbn [In].
      destruct (String.eqb_spec k' k) as [-> | Hne].
      * split.
        -- intros [H | [H _]].
           ++ injection H as ->. now split.
           ++ exfalso. apply H. now left.
        -- intros [_ H]. injection H as ->. now left.
      * split.
        -- intros [H | [H1 H2]].
           ++ injection H as H _. contradiction.
           ++ split; [| exact H2]. intros Hin. apply H1. now right.
        -- intros [H1 H2]. right. split; [| exact H2].
           intros [H | H]; [contradiction | now apply H1].
Qed.

Lemma to_dict_from_NoDup (seen : list string) (md : MultiDict) :
  NoDup (map fst (to_dict_from seen md)).
Proof.
  revert seen. induction md as [| [k' v'] r IH]; intros seen;
    cbn [to_dict_from]; [constructor |].
  destruct (existsb (String.eqb k') seen); [apply IH |].
  cbn [map fst]. constructor; [| apply IH].
  intros Hin. apply in_map_iff in Hin. destruct Hin as ([k v] & Hk & Hin).
  cbn [fst] in Hk. subst k.
  apply to_dict_from_In in Hin. destruct Hin as [Hn _].
  apply Hn. now left.
Qed.

Lemma to_dict_first_values (md : MultiDict) :
  NoDup (map fst (to_dict md)) /\
  (forall k v, In (k, v) (to_dict md) <-> first_value md k = Some v).
Proof.
  split; [apply to_dict_from_NoDup |].
  intros k v. unfold to_dict. rewrite to_dict_from_In.
  split; [now intros [_ H] | intros H; split; [intros [] | exact H]].
Qed.

(** ** JSON payloads *)

Lemma body_recorded (c : Call) (b : pyval) :
  fresh_run (call_request c) (capture_body (call_request c)) = returns b ->
  exists e, records c e /\ body e = b.
Proof.
  intros Hb. eexists. unfold records.
  rewrite current_request_data_run, Hb. split; reflexivity.
Qed.

Lemma raise_not_recorded (c : Call) (x : exn) (log : list entry) :
  fresh_run (call_request c) (capture_body (call_request c)) = raises x ->
  handle c log = raises x /\ ~ handled c.
Proof.
  intros Hx. split.
  - unfold handle. now rewrite catch_all_run, current_request_data_run, Hx.
  - intros [e He]. unfold records in He.
    rewrite current_request_data_run, Hx in He. discriminate.
Qed.

Lemma handled_json_value (c : Call) (v : pyval) :
  has_payload (call_request c) = true ->
  is_json (call_request c) = true ->
  json_loads (req_payload (call_request c)) = JsonValue v ->
  handled c.
Proof.
  intros Hm Hj Hv. apply handled_iff. unfold parser_error.
  fold (has_payload (call_request c)). now rewrite Hm, Hj, Hv.
Qed.


(** ** Payloads that are not JSON *)

(** What the view records for a POST, PUT or PATCH that is not declared
    as JSON: the dictionary of the form fields when there is at least
    one; the payload text when the form parser does not get to read the
    payload, the mimetype being no form one or the multipart boundary
    missing; and what the form parser has left unread, nothing when it
    has read to the end, when it ran and found no field. *)
Lemma non_json_body (c : Call) :
  has_payload (call_request c) = true ->
  is_json (call_request c) = false ->
  handled c ->
  exists e,
    records c e /\
    (form_fields (call_request c) <> [] ->
     body e = str_dict (to_dict (form_fields (call_request c)))) /\
    (form_parser_runs (call_request c) = false ->
     body e = PyStr (req_payload (call_request c))) /\
    (form_parser_runs (call_request c) = true ->
     form_fields (call_request c) = [] ->
     body e = PyStr (left_after_form (call_request c))).
Proof.
  intros Hm Hj [e He]. exists e.
  split; [exact He |].
  destruct (records_fields c e He) as (Hb & _).
  rewrite (capture_non_json _ Hm Hj) in Hb.
  unfold form_fields, left_after_form.
  destruct (form_parser_runs (call_request c)).
  - destruct (form_parse (call_request c)) as [[| f fields] | rest | x];
      try discriminate; apply returns_inj in Hb;
      repeat split; intros; congruence.
  - apply returns_inj in Hb. repeat split; intros; congruence.
Qed.

(** C5. A POST, PUT or PATCH that is not declared as JSON and whose
    form has no field should record the text of its payload. When the
    form parser gets to read the payload, finds no field in it and the
    payload is not empty, it does not: the parser has read the payload
    to its end before [get_data] is asked for it, the recorded body is
    the empty string and the card shows the placeholder. *)
Theorem raw_payload_lost_to_form_parser (c : Call) (log : list entry) :
  has_payload (call_request c) = true ->
  is_json (call_request c) = false ->
  form_parser_runs (call_request c) = true ->
  form_parse (call_request c) = FormFields [] ->
  req_payload (call_request c) <> "" ->
  exists e r log' card cards,
    records c e /\
    spec_form_body (call_request c) = PyStr (req_payload (call_request c)) /\
    body e = PyStr "" /\
    body e <> spec_form_body (call_request c) /\
    handle c log = returns (r, log') /\
    page_listing (page r) = Cards (card :: cards) /\
    card_body card = PyStr placeholder.
Proof.
  intros Hm Hj Hruns Hf Hp.
  pose proof (capture_non_json _ Hm Hj) as Hb. rewrite Hruns, Hf in Hb.
  destruct (body_recorded c _ Hb) as (e & He & Hbe).
  destruct (handle_returns c log (ex_intro _ e He))
    as (e' & r & log' & tail & He' & Hrun & _ & _ & _ & _ & Hl).
  pose proof (records_functional c e' e He' He). subst e'.
  assert (Hspec : spec_form_body (call_request c)
                  = PyStr (req_payload (call_request c))).
  { unfold spec_form_body, form_fields. now rewrite Hruns, Hf. }
  exists e, r, log', (render_card e), (map render_card tail).
  repeat split; try assumption.
  - rewrite Hspec, Hbe. intros H. injection H as H. now apply Hp.
  - apply card_body_falsy. now rewrite Hbe.
Qed.

(** ** GET requests *)

(** C6. For a GET the recorded path is a slash followed by the matched
    segment, exactly a slash on the root rule, and the recorded body is
    the mapping of the query parameters: a dictionary of strings in
    which every parameter name is a key once, with the first value
    given for it. *)
Theorem get_entry (c : Call) :
  req_method (call_request c) = "GET" ->
  exists e,
    records c e /\
    path e = ("/" ++ route_path (call_route c))%string /\
    (call_route c = RootRoute -> path e = "/") /\
    body e = str_dict (to_dict (req_args (call_request c))) /\
    NoDup (map fst (to_dict (req_args (call_request c)))) /\
    (forall k v,
        In (k, v) (to_dict (req_args (call_request c))) <->
        first_value (req_args (call_request c)) k = Some v).
Proof.
  intros Hm.
  destruct (body_recorded c _ (capture_get _ Hm)) as (e & He & Hb).
  exists e.
  destruct (records_fields c e He) as (_ & Hp & _).
  destruct (to_dict_first_values (req_args (call_request c))) as [Hn Hv].
  repeat split; try assumption; try apply Hv.
  intros Hr. rewrite Hp, Hr. reflexivity.
Qed.

(** ** The body block *)

(** C7. Every card of every page shows a body block that is not empty;
    the card of a request whose recorded body is empty or absent shows
    the placeholder, and that is the case of every request whose method
    is none of GET, POST, PUT and PATCH, whose body stays the empty
    string. *)
Theorem placeholder_for_empty_body (c : Call) (log : list entry) :
  handled c ->
  exists e r log' card cards,
    records c e /\
    handle c log = returns (r, log') /\
    page_listing (page r) = Cards (card :: cards) /\
    Forall (fun k => truthy (card_body k) = true) (card :: cards) /\
    (empty_body (body e) -> card_body card = PyStr placeholder) /\
    (has_payload (call_request c) = false ->
     req_method (call_request c) <> "GET" ->
     body e = PyStr "" /\ card_body card = PyStr placeholder).
Proof.
  intros Hc.
  destruct (handle_returns c log Hc)
    as (e & r & log' & tail & He & Hrun & _ & _ & _ & _ & Hl).
  exists e, r, log', (render_card e), (map render_card tail).
  split; [exact He |]. split; [exact Hrun |]. split; [exact Hl |].
  split; [| split].
  - constructor; [apply card_body_truthy |].
    apply Forall_map, Forall_forall. intros x _. apply card_body_truthy.
  - intros Hempty. apply card_body_falsy, empty_body_falsy, Hempty.
  - intros Hm Hg.
    destruct (records_fields c e He) as (Hb & _).
    rewrite (capture_other _ Hm Hg) in Hb. apply returns_inj in Hb.
    split; [now symmetry |].
    apply card_body_falsy. rewrite <- Hb. reflexivity.
Qed.

(** ** What the view does with a request *)

Lemma render_card_shows (l : list entry) : Forall2 shows l (map render_card l).
Proof.
  induction l as [| e l IH]; cbn [map]; constructor; [| exact IH].
  unfold shows, render_card, py_or. cbn. repeat split.
Qed.


(** ** Falsy JSON payloads *)

(** C9. A POST, PUT or PATCH declared as JSON whose payload parses to
    0, false, the empty string, the empty object or the empty array is
    recorded with that value as its body, and its card shows the
    placeholder. *)
Theorem falsy_json_shows_placeholder (c : Call) (log : list entry) (v : pyval) :
  has_payload (call_request c) = true ->
  is_json (call_request c) = true ->
  json_loads (req_payload (call_request c)) = JsonValue v ->
  In v falsy_json ->
  exists e r log' card cards,
    records c e /\
    body e = v /\
    handle c log = returns (r, log') /\
    page_listing (page r) = Cards (card :: cards) /\
    card_body card = PyStr placeholder.
Proof.
  intros Hm Hj Hv Hin.
  destruct (handle_returns c log (handled_json_value c v Hm Hj Hv))
    as (e & r & log' & tail & He & Hrun & _ & _ & _ & _ & Hl).
  assert (Hfalsy : is_None v = false /\ truthy v = false).
  { cbn [falsy_json In] in Hin.
    destruct Hin as [<- | [<- | [<- | [<- | [<- | []]]]]]; split; reflexivity. }
  destruct Hfalsy as [Hn Ht].
  assert (Hb : body e = v).
  { destruct (records_fields c e He) as (Hb & _).
    rewrite (capture_json _ Hm Hj), Hv, Hn in Hb.
    symmetry. exact (returns_inj _ _ Hb). }
  exists e, r, log', (render_card e), (map render_card tail).
  repeat split; try assumption.
  apply card_body_falsy. now rewrite Hb.
Qed.

End Properties.

(** ** One request under two parsers *)

Section Compared.

Context {P : Parsers}.

(** When the request is declared as JSON the form parser plays no part. *)
Lemma json_ignores_form (Q : Parsers) (request : Request) (s : Input) :
  (forall data, @json_loads Q data = @json_loads P data) ->
  has_payload request = true ->
  is_json request = true ->
  @capture_body Q request s = @capture_body P request s.
Proof.
  intros Hl Hm Hj. unfold has_payload in Hm.
  unfold capture_body, get_json. rewrite Hm, Hj. cbn [negb].
  unfold bind. destruct (get_data request s) as [x | [data s']];
    [reflexivity |].
  rewrite Hl. reflexivity.
Qed.

(** C10. A POST, PUT or PATCH declared as JSON whose payload is the
    text [null], which parses to [None], is recorded with the text
    ["null"] as its body, not with [None]; the view cannot tell the
    parsed [null] from a payload that does not parse: [get_json] answers
    [None] as it does on a parse failure, and the body is the one
    computed when the parser rejects the payload. *)
Theorem json_null_recorded_as_text (c : Call) :
  has_payload (call_request c) = true ->
  is_json (call_request c) = true ->
  req_payload (call_request c) = "null" ->
  json_loads "null" = JsonValue PyNone ->
  exists e,
    records c e /\
    body e = PyStr "null" /\
    body e <> PyNone /\
    fresh_run (call_request c) (get_json true (call_request c))
      = returns PyNone /\
    (forall Q : Parsers,
        @json_loads Q "null" = JsonValueError ->
        fresh_run (call_request c) (@get_json Q true (call_request c))
          = returns PyNone /\
        fresh_run (call_request c) (@capture_body Q (call_request c))
          = returns (body e)).
Proof.
  intros Hm Hj Hd Hv.
  pose proof (capture_json _ Hm Hj) as Hb. rewrite Hd, Hv in Hb.
  cbn [is_None] in Hb.
  destruct (body_recorded c _ Hb) as (e & He & Hbe). exists e.
  split; [exact He |]. split; [exact Hbe |].
  split; [rewrite Hbe; discriminate |].
  split.
  - rewrite (get_json_silent_run _ Hj), Hd, Hv. reflexivity.
  - intros Q HQ. split.
    + rewrite (@get_json_silent_run Q _ Hj), Hd, HQ. reflexivity.
    + rewrite (@capture_json Q _ Hm Hj), Hd, HQ, Hbe. reflexivity.
Qed.

End Compared.

(** * Further properties of the view *)

Section Further.

Context {P : Parsers}.

(** ** The log as a sliding window *)

Lemma Forall_firstn {A : Type} (Q : A -> Prop) (n : nat) (l : list A) :
  Forall Q l -> Forall Q (firstn n l).
Proof.
  intros H. revert n. induction H as [| x l Hx _ IH]; intros [| n];
    cbn [firstn]; constructor; auto.
Qed.

(** X1. After any number of requests handled from the empty log, the
    log holds the entries of the last 50 of them, or of all of them when
    there are fewer, the newest first; one response is returned for each
    request. *)
Theorem log_holds_last_fifty (calls : list Call) :
  Forall handled calls ->
  exists entries resps,
    Forall2 records calls entries /\
    serve calls initial_log
      = returns (resps, rev (skipn (length calls - 50) entries)) /\
    length resps = length calls.
Proof.
  intros Hall. destruct (handled_all calls Hall) as (entries & HF).
  pose proof (serve_from_empty calls entries HF) as Hrun.
  pose proof (Forall2_length HF) as Hlen.
  exists entries. eexists. split; [exact HF |].
  rewrite Hlen, <- firstn_rev. split; [exact Hrun |].
  rewrite length_map, length_combine, length_seq. lia.
Qed.

(** X2. On a log of any length the view puts the new entry in front,
    keeps the older entries as they are and in their order, and drops at
    most one entry, the last: none below 50 entries, one from 50 on. A
    log that is already longer than 50 entries therefore keeps its
    length instead of coming back to 50. *)
Theorem one_entry_in_at_most_one_out (c : Call) (log : list entry) :
  handled c ->
  exists e r log',
    records c e /\
    handle c log = returns (r, log') /\
    log' = e :: (if (50 <=? length log)%nat then removelast log else log) /\
    length log' = (if (50 <=? length log)%nat then length log
                   else S (length log)).
Proof.
  intros [e He].
  pose proof (handle_run c e log He) as Hrun. rewrite trimmed_cons in Hrun.
  eexists e, _, _. split; [exact He |]. split; [exact Hrun |].
  split; [reflexivity |].
  cbn [length].
  destruct (Nat.leb_spec 50 (length log)) as [H | H]; [| reflexivity].
  rewrite removelast_firstn_len, length_firstn. lia.
Qed.

(** ** What every recorded entry satisfies *)

Lemma capture_body_not_None (request : Request) (b : pyval) :
  fresh_run request (capture_body request) = returns b -> b <> PyNone.
Proof.
  destruct (has_payload request) eqn:Hm.
  - destruct (is_json request) eqn:Hj.
    + rewrite (capture_json _ Hm Hj).
      destruct (json_loads (req_payload request)) as [v | | x];
        intros H; try discriminate; apply returns_inj in H; subst b;
        [| discriminate].
      destruct v; cbn [is_None]; discriminate.
    + rewrite (capture_non_json _ Hm Hj).
      destruct (form_parser_runs request).
      * destruct (form_parse request) as [[| f fields] | rest | x];
          intros H; try discriminate; apply returns_inj in H; subst b;
          discriminate.
      * intros H. apply returns_inj in H. subst b. discriminate.
  - destruct (String.eqb (req_method request) "GET") eqn:Hg.
    + apply String.eqb_eq in Hg. rewrite (capture_get _ Hg).
      intros H. apply returns_inj in H. subst b. discriminate.
    + apply String.eqb_neq in Hg. rewrite (capture_other _ Hm Hg).
      intros H. apply returns_inj in H. subst b. discriminate.
Qed.

Lemma records_well_formed (c : Call) (e : entry) :
  records c e -> well_formed e.
Proof.
  intros He. destruct (records_entry c e He) as (b & Hb & ->).
  split; cbn [body path].
  - exact (capture_body_not_None _ _ Hb).
  - cbn [append prefix].
    destruct (ascii_dec "/" "/") as [_ | H]; [| now destruct H].
    now destruct (route_path (call_route c)).
Qed.

(** X3. Whatever the requests, their methods, payloads and what the
    parsers make of them, every entry left in the log has a body that is
    not [None] and a path that starts with a slash. *)
Theorem log_entries_well_formed (calls : list Call) :
  Forall handled calls ->
  exists resps log,
    serve calls initial_log = returns (resps, log) /\
    Forall well_formed log.
Proof.
  intros Hall. destruct (handled_all calls Hall) as (entries & HF).
  eexists _, _. split; [exact (serve_from_empty calls entries HF) |].
  apply Forall_firstn, Forall_rev.
  induction HF as [| c e cs es He _ IH]; [constructor |].
  inversion Hall; subst.
  constructor; [exact (records_well_formed c e He) | now apply IH].
Qed.

(** ** The user agent *)

Lemma headers_get_default_Some (hs : Headers) (key d : string) :
  headers_get hs key (Some d) <> None.
Proof.
  induction hs as [| [k v] hs IH]; cbn [headers_get]; [discriminate |].
  destruct (String.eqb (lower k) (lower key)); [discriminate | exact IH].
Qed.

(** X4. The recorded user agent is the value of the first [User-Agent]
    header, whatever the case of its name and even when the value is
    empty; it is the text [N/A] when the request has no such header; it
    is never [None]. *)
Theorem user_agent_recorded (c : Call) :
  handled c ->
  exists e,
    records c e /\
    (forall v, first_header (req_headers (call_request c)) "User-Agent" v ->
               user_agent e = Some v) /\
    (no_header (req_headers (call_request c)) "User-Agent" ->
     user_agent e = Some "N/A") /\
    user_agent e <> None.
Proof.
  intros [e He]. exists e.
  split; [exact He |].
  destruct (records_entry c e He) as (b & _ & ->). cbn [user_agent].
  repeat split.
  - intros v Hv. now apply headers_get_first.
  - intros Hn. now apply headers_get_absent.
  - apply headers_get_default_Some.
Qed.

(** ** GET bodies *)

(** X5. The body recorded for a GET is a dictionary of strings with one
    item for each name of the query string, holding the first value
    given for that name: the later values of a repeated parameter are
    not recorded. *)
Theorem get_body_first_values (c : Call) :
  req_method (call_request c) = "GET" ->
  exists e d,
    records c e /\
    body e = str_dict d /\
    NoDup (map fst d) /\
    (forall k v, In (k, v) d <->
                 first_value (req_args (call_request c)) k = Some v).
Proof.
  intros Hm.
  destruct (body_recorded c _ (capture_get _ Hm)) as (e & He & Hb).
  exists e, (to_dict (req_args (call_request c))).
  destruct (to_dict_first_values (req_args (call_request c))) as [Hn Hv].
  repeat split; try assumption; apply Hv.
Qed.

(** ** Forms and plain payloads *)

Lemma form_mimetype_not_json (request : Request) :
  form_mimetype (req_mimetype request) = true -> is_json request = false.
Proof.
  unfold form_mimetype, is_json. intros H.
  apply orb_true_iff in H.
  destruct H as [H | H]; apply String.eqb_eq in H; rewrite H; reflexivity.
Qed.

(** X6. A POST, PUT or PATCH of a form mimetype in which the form
    parser finds at least one field is recorded with the dictionary of
    the fields, one item for each field name holding its first value,
    whatever the text of the payload; its card shows that dictionary. *)
Theorem form_fields_recorded (c : Call) :
  has_payload (call_request c) = true ->
  form_mimetype (req_mimetype (call_request c)) = true ->
  form_fields (call_request c) <> [] ->
  exists e d,
    records c e /\
    body e = str_dict d /\
    d <> [] /\
    NoDup (map fst d) /\
    (forall k v, In (k, v) d <->
                 first_value (form_fields (call_request c)) k = Some v) /\
    card_body (render_card e) = str_dict d.
Proof.
  intros Hm Hmt Hf.
  pose proof (form_mimetype_not_json _ Hmt) as Hj.
  pose proof (capture_non_json _ Hm Hj) as Hb.
  destruct (to_dict_first_values (form_fields (call_request c))) as [Hn Hv].
  unfold form_fields in *.
  destruct (form_parser_runs (call_request c)); [| contradiction].
  destruct (form_parse (call_request c)) as [[| [k0 v0] fields] | rest | x];
    try contradiction.
  destruct (body_recorded c _ Hb) as (e & He & Hbe).
  exists e, (to_dict ((k0, v0) :: fields)).
  split; [exact He |]. split; [exact Hbe |].
  split; [discriminate |]. split; [exact Hn |]. split; [exact Hv |].
  unfold render_card, py_or. cbn [card_body]. rewrite Hbe. reflexivity.
Qed.

(** X7. A POST, PUT or PATCH whose mimetype is neither JSON nor a form
    one is recorded with the exact text of its payload; its card shows
    that text, or the placeholder when the payload is empty. *)
Theorem plain_payload_recorded (c : Call) :
  has_payload (call_request c) = true ->
  is_json (call_request c) = false ->
  form_mimetype (req_mimetype (call_request c)) = false ->
  exists e,
    records c e /\
    body e = PyStr (req_payload (call_request c)) /\
    card_body (render_card e)
      = PyStr (if String.eqb (req_payload (call_request c)) ""
               then placeholder else req_payload (call_request c)).
Proof.
  intros Hm Hj Hmt.
  pose proof (capture_non_json _ Hm Hj) as Hb.
  unfold form_parser_runs in Hb. rewrite Hmt in Hb. cbn [andb] in Hb.
  destruct (body_recorded c _ Hb) as (e & He & Hbe). exists e.
  split; [exact He |]. split; [exact Hbe |].
  unfold render_card, py_or. cbn [card_body]. rewrite Hbe. cbn [truthy].
  destruct (String.eqb (req_payload (call_request c)) ""); reflexivity.
Qed.

(** X10. For a POST, PUT or PATCH declared as JSON the entry recorded
    depends on the JSON parser alone: whatever the form parser would
    find in the payload, the entry is the same. *)
Theorem json_first (Q : Parsers) (c : Call) :
  (forall data, @json_loads Q data = @json_loads P data) ->
  has_payload (call_request c) = true ->
  is_json (call_request c) = true ->
  forall e, @records Q c e <-> @records P c e.
Proof.
  intros Hl Hm Hj e.
  unfold records, current_request_data, fresh_run, bind.
  rewrite (json_ignores_form Q _ _ Hl Hm Hj). reflexivity.
Qed.

(** ** The page *)

(** X8. The page returned for a request is never the empty-state page:
    it lists the log as the request leaves it, one card for each entry
    in the order of the log, each card showing the fields of its entry;
    the count in its heading is the number of cards, at least one; and
    the address it advertises is the host URL of the request. *)
Theorem page_lists_the_log (c : Call) (log : list entry) :
  handled c ->
  exists r log' cards,
    handle c log = returns (r, log') /\
    page_listing (page r) = Cards cards /\
    page_listing (page r) <> EmptyState /\
    Forall2 shows log' cards /\
    page_count (page r) = length cards /\
    (1 <= page_count (page r))%nat /\
    page_request_url (page r) = req_host_url (call_request c).
Proof.
  intros Hc.
  destruct (handle_returns c log Hc)
    as (e & r & log' & tail & He & Hrun & -> & _ & _ & Hp & Hl).
  exists r, (e :: tail), (map render_card (e :: tail)).
  split; [exact Hrun |]. split; [exact Hl |].
  split; [rewrite Hl; discriminate |].
  split; [apply render_card_shows |].
  rewrite Hp. cbn [HTML_TEMPLATE page_count page_request_url].
  rewrite length_map. cbn [length]. repeat split. lia.
Qed.

(** ** The headers block *)

Lemma has_newline_app (a b : string) :
  has_newline (a ++ b) = has_newline a || has_newline b.
Proof.
  induction a as [| c a IH]; cbn [append has_newline]; [reflexivity |].
  now rewrite IH, orb_assoc.
Qed.

Lemma lines_no_newline (x : string) :
  has_newline x = false -> lines x = [x].
Proof.
  induction x as [| c x IH]; cbn [has_newline lines]; [reflexivity |].
  intros H. apply orb_false_iff in H. destruct H as [Hc Hx].
  rewrite Hc, (IH Hx). reflexivity.
Qed.

Lemma lines_app_newline (x r : string) :
  has_newline x = false -> lines (x ++ newline ++ r) = x :: lines r.
Proof.
  induction x as [| c x IH]; cbn [has_newline append]; intros H.
  - reflexivity.
  - apply orb_false_iff in H. destruct H as [Hc Hx].
    cbn [lines]. rewrite Hc, (IH Hx). reflexivity.
Qed.

Lemma lines_concat (ls : list string) :
  ls <> [] ->
  Forall (fun l => has_newline l = false) ls ->
  lines (String.concat newline ls) = ls.
Proof.
  intros Hne H. induction H as [| x ls Hx Hls IH]; [contradiction |].
  destruct ls as [| y ls].
  - cbn [String.concat]. now apply lines_no_newline.
  - change (String.concat newline (x :: y :: ls))
      with (x ++ newline ++ String.concat newline (y :: ls))%string.
    rewrite (lines_app_newline _ _ Hx), IH by discriminate. reflexivity.
Qed.

(** X9. When the request has at least one header and no header name or
    value holds a line feed, the headers block of its entry has exactly
    one line for each header, in the order received, each made of the
    name, a colon, a space and the value. With no header at all the
    block is empty. *)
Theorem headers_block_lines (c : Call) :
  handled c ->
  exists e,
    records c e /\
    (req_headers (call_request c) = [] -> headers e = "") /\
    (req_headers (call_request c) <> [] ->
     Forall (fun kv => has_newline (fst kv) = false /\
                       has_newline (snd kv) = false)
       (req_headers (call_request c)) ->
     lines (headers e) = map header_line (req_headers (call_request c))).
Proof.
  intros [e He]. exists e.
  split; [exact He |].
  destruct (records_entry c e He) as (b & _ & ->). cbn [headers].
  unfold headers_str, headers_items. split.
  - intros ->. reflexivity.
  - intros Hne Hnl.
    change (fun kv : string * string => (fst kv ++ ": " ++ snd kv)%string)
      with header_line.
    apply lines_concat.
    + destruct (req_headers (call_request c)); [contradiction | discriminate].
    + apply Forall_map. apply Forall_impl with (2 := Hnl).
      intros [k v] [Hk Hv]. unfold header_line. cbn [fst snd] in *.
      rewrite !has_newline_app, Hk, Hv. reflexivity.
Qed.

End Further.

(** * The samples *)

#[local] Existing Instance sample_parsers.

(** ** The accessors *)

Example is_json_mimetypes :
  map (fun mt => is_json (with_payload mt "" (sample "POST")))
    ["application/json"; "application/ld+json"; "text/plain";
     "application/x-www-form-urlencoded"; ""]
  = [true; true; false; false; false].
Proof. reflexivity. Qed.

Example headers_get_ignores_case :
  headers_get [("Host", "h"); ("x-forwarded-for", "1.2.3.4")]
    "X-Forwarded-For" None = Some "1.2.3.4".
Proof. reflexivity. Qed.

Example user_agent_default :
  headers_get [("Host", "h")] "User-Agent" (Some "N/A") = Some "N/A".
Proof. reflexivity. Qed.

Example to_dict_keeps_first :
  to_dict [("a", "1"); ("b", "2"); ("a", "3")] = [("a", "1"); ("b", "2")].
Proof. reflexivity. Qed.

(** [get_data] after the form parser finds the stream empty; after
    [get_json] it finds the cached payload; after a form parser that
    never got to read, for want of a boundary, it finds the payload. *)
Example get_data_after_form :
  fresh_run (call_request post_upload)
    (_ <- request_form (call_request post_upload) ;;
     get_data (call_request post_upload))
  = returns "".
Proof. reflexivity. Qed.

Example get_data_after_get_json :
  fresh_run (call_request post_malformed)
    (_ <- get_json true (call_request post_malformed) ;;
     get_data (call_request post_malformed))
  = returns "{x:}".
Proof. reflexivity. Qed.

Example get_data_without_boundary :
  fresh_run (call_request post_upload_no_boundary)
    (_ <- request_form (call_request post_upload_no_boundary) ;;
     get_data (call_request post_upload_no_boundary))
  = returns one_file_upload.
Proof. reflexivity. Qed.

(** [request.form] is parsed once: the second read returns the cached
    form although the stream is empty by then. *)
Example form_is_cached :
  fresh_run (call_request post_form)
    (_ <- request_form (call_request post_form) ;;
     request_form (call_request post_form))
  = returns [("a", "1"); ("b", "2")].
Proof. reflexivity. Qed.

Example get_json_not_silent :
  fresh_run (call_request post_malformed)
    (get_json false (call_request post_malformed))
  = raises BadRequest.
Proof. reflexivity. Qed.

Example get_json_silent_deep :
  fresh_run (call_request post_deep) (get_json true (call_request post_deep))
  = raises RecursionError.
Proof. vm_compute. reflexivity. Qed.

Example pop_empty : log_pop [] = raises IndexError.
Proof. reflexivity. Qed.

(** ** Which samples are recorded *)

Lemma numbered_handled (s n : nat) : Forall handled (map numbered (seq s n)).
Proof.
  apply Forall_forall. intros c Hin. apply in_map_iff in Hin.
  destruct Hin as (i & <- & _). now apply handled_without_payload.
Qed.

Lemma get_root_handled : handled get_root.
Proof. now apply handled_without_payload. Qed.

Lemma get_without_agent_handled : handled get_without_agent.
Proof. now apply handled_without_payload. Qed.

Lemma delete_item_handled : handled delete_item.
Proof. now apply handled_without_payload. Qed.

Lemma forwarded_post_handled : handled forwarded_post.
Proof. now apply handled_plain. Qed.

Example post_deep_not_handled : ~ handled post_deep.
Proof.
  rewrite handled_iff. vm_compute. discriminate.
Qed.

Example post_many_parts_rejected :
  handle post_many_parts initial_log = raises RequestEntityTooLarge.
Proof.
  apply (raise_not_recorded post_many_parts RequestEntityTooLarge initial_log).
  rewrite capture_non_json by reflexivity.
  vm_compute. reflexivity.
Qed.

(** ** Concrete runs *)

Example three_requests :
  run_summary (map numbered (seq 1 3)) = Some ([1; 2; 3]%nat, ["/C"; "/B"; "/A"]).
Proof. reflexivity. Qed.

Example fifty_one_requests :
  option_map snd (run_summary (map numbered (seq 1 51)))
  = Some (map path_of_letter (rev (seq 2 50))).
Proof. vm_compute. reflexivity. Qed.

Example sixty_requests :
  option_map (fun s => (last (fst s) 0%nat, length (snd s)))
    (run_summary (map numbered (seq 1 60)))
  = Some (50%nat, 50%nat).
Proof. vm_compute. reflexivity. Qed.

(** The six methods of the rules, on sample requests. *)
Example routed_methods_answered :
  Forall (fun m => exists r log',
              handle (call_at RootRoute (sample m)) initial_log
                = returns (r, log') /\ status r = 200%nat)
    route_methods.
Proof. repeat constructor; eexists _, _; split; reflexivity. Qed.

Lemma requests_log_length_is_min_witness :
  exists resps log,
    serve (map numbered (seq 1 60)) initial_log = returns (resps, log) /\
    length log = Nat.min (length (map numbered (seq 1 60))) 50 /\
    (length log <= 50)%nat /\
    map (fun r => page_count (page r)) resps =
      map (fun k => Nat.min k 50)
        (seq 1 (length (map numbered (seq 1 60)))).
Proof.
  exact (requests_log_length_is_min (map numbered (seq 1 60))
           (numbered_handled 1 60)).
Defined.

Lemma newest_first_oldest_evicted_witness :
  exists e1 es resps r51,
    records (numbered 1) e1 /\
    Forall2 records (map numbered (seq 2 50)) es /\
    serve (numbered 1 :: map numbered (seq 2 50)) initial_log
      = returns (resps, rev es) /\
    nth_error resps 50 = Some r51 /\
    page_listing (page r51) = Cards (map render_card (rev es)).
Proof.
  exact (proj2 newest_first_oldest_evicted (numbered 1)
           (map numbered (seq 2 50)) eq_refl (numbered_handled 1 51)).
Defined.

(** ** The client address *)

Example empty_forwarded_for_ip :
  exists e, records empty_forwarded_for e /\
            ip e = Some "" /\
            spec_client_address (call_request empty_forwarded_for)
              = Some "127.0.0.1".
Proof. eexists. repeat split. Qed.

(** C3, as stated, fails: an empty forwarded value is recorded as it is,
    the peer address is not substituted. *)
Lemma client_address_not_as_specified :
  ~ (forall (c : Call) (e : entry),
        records c e -> ip e = spec_client_address (call_request c)).
Proof.
  intros H.
  specialize (H empty_forwarded_for _ eq_refl).
  discriminate H.
Qed.

Lemma client_address_witness :
  exists e, records forwarded_post e /\ ip e = Some "9.9.9.9".
Proof.
  destruct (client_address forwarded_post forwarded_post_handled)
    as (e & He & _ & _ & _ & H9).
  exists e. split; [exact He |].
  apply H9.
  exists [("Host", "localhost:5000"); ("User-Agent", "curl/8.5.0");
          ("Accept", "*/*")], "X-Forwarded-For", [].
  repeat split.
  repeat constructor; discriminate.
Defined.

(** ** JSON payloads *)

Example post_object_body :
  exists e, records post_object e /\ body e = PyDict [("x", PyInt 1)].
Proof. eexists. split; reflexivity. Qed.

Example post_malformed_body :
  exists e, records post_malformed e /\ body e = PyStr "{x:}".
Proof. eexists. split; reflexivity. Qed.

Example post_null_body :
  exists e, records post_null e /\ body e = PyStr "null".
Proof. eexists. split; reflexivity. Qed.





(** ** Payloads that are not JSON *)

Example post_form_body :
  exists e, records post_form e /\
            body e = PyDict [("a", PyStr "1"); ("b", PyStr "2")].
Proof. eexists. split; reflexivity. Qed.

Example put_text_body :
  exists e, records put_text e /\ body e = PyStr "hello".
Proof. eexists. split; reflexivity. Qed.

Example post_no_field_body :
  exists e, records post_no_field e /\
            body e = PyStr "" /\
            spec_form_body (call_request post_no_field) = PyStr "&".
Proof. eexists. repeat split. Qed.

(** Without a boundary the form parser gives up before it reads, and
    the payload is recorded. *)
Example post_upload_no_boundary_body :
  exists e, records post_upload_no_boundary e /\
            body e = PyStr one_file_upload.
Proof. eexists. split; reflexivity. Qed.

Lemma raw_payload_lost_to_form_parser_witness :
  exists e r log' card cards,
    records post_upload e /\
    spec_form_body (call_request post_upload) = PyStr one_file_upload /\
    body e = PyStr "" /\
    body e <> spec_form_body (call_request post_upload) /\
    handle post_upload initial_log = returns (r, log') /\
    page_listing (page r) = Cards (card :: cards) /\
    card_body card = PyStr "No body or query parameters received.".
Proof.
  apply (raw_payload_lost_to_form_parser (P := sample_parsers) post_upload
           initial_log eq_refl eq_refl eq_refl eq_refl).
  discriminate.
Defined.

(** ** GET requests *)

Example get_foo_entry :
  exists e, records get_foo e /\
            path e = "/foo" /\
            body e = PyDict [("a", PyStr "1"); ("b", PyStr "2")].
Proof. eexists. repeat split. Qed.

Example get_root_entry :
  exists e, records get_root e /\ path e = "/" /\ body e = PyDict [].
Proof. eexists. repeat split. Qed.

Lemma get_entry_witness :
  exists e,
    records get_foo e /\
    path e = "/foo" /\
    (call_route get_foo = RootRoute -> path e = "/") /\
    body e = PyDict [("a", PyStr "1"); ("b", PyStr "2")] /\
    NoDup (map fst (to_dict (req_args (call_request get_foo)))) /\
    (forall k v,
        In (k, v) (to_dict (req_args (call_request get_foo))) <->
        first_value [("a", "1"); ("b", "2")] k = Some v).
Proof. exact (get_entry get_foo eq_refl). Defined.

(** ** The body block *)

Example delete_item_body : exists e, records delete_item e /\ body e = PyStr "".
Proof. eexists. split; reflexivity. Qed.

Lemma placeholder_for_empty_body_witness :
  exists e r log' card cards,
    records delete_item e /\
    handle delete_item initial_log = returns (r, log') /\
    page_listing (page r) = Cards (card :: cards) /\
    body e = PyStr "" /\
    card_body card = PyStr "No body or query parameters received.".
Proof.
  destruct (placeholder_for_empty_body delete_item initial_log
              delete_item_handled)
    as (e & r & log' & card & cards & He & Hrun & Hl & _ & _ & Hm).
  exists e, r, log', card, cards.
  repeat split; try assumption; apply Hm; (reflexivity || discriminate).
Defined.

(** ** Falsy and null JSON payloads *)

Lemma falsy_json_shows_placeholder_witness :
  exists e r log' card cards,
    records post_zero e /\
    body e = PyInt 0 /\
    handle post_zero initial_log = returns (r, log') /\
    page_listing (page r) = Cards (card :: cards) /\
    card_body card = PyStr "No body or query parameters received.".
Proof.
  exact (falsy_json_shows_placeholder (P := sample_parsers) post_zero
           initial_log (PyInt 0) eq_refl eq_refl eq_refl (or_introl eq_refl)).
Defined.

Lemma json_null_recorded_as_text_witness :
  exists e,
    records post_null e /\
    body e = PyStr "null" /\
    body e <> PyNone.
Proof.
  destruct (json_null_recorded_as_text (P := sample_parsers) post_null
              eq_refl eq_refl eq_refl eq_refl)
    as (e & He & Hb & Hn & _).
  exists e. repeat split; assumption.
Defined.

(** ** Further properties on the samples *)

Example get_repeated_body :
  exists e, records get_repeated e /\
            body e = PyDict [("a", PyStr "1"); ("b", PyStr "2")].
Proof. eexists. split; reflexivity. Qed.

Example sample_headers_block :
  exists e, records get_root e /\
            lines (headers e)
            = ["Host: localhost:5000"; "User-Agent: curl/8.5.0"; "Accept: */*"].
Proof. eexists. split; reflexivity. Qed.

Example oversized_log_stays_oversized :
  exists r log', handle get_root oversized_log = returns (r, log') /\
                 length log' = 60%nat /\ page_count (page r) = 60%nat.
Proof. eexists _, _. repeat split. Qed.

Lemma log_holds_last_fifty_witness :
  exists entries resps,
    Forall2 records (map numbered (seq 1 60)) entries /\
    serve (map numbered (seq 1 60)) initial_log
      = returns (resps,
                 rev (skipn (length (map numbered (seq 1 60)) - 50) entries)) /\
    length resps = length (map numbered (seq 1 60)).
Proof.
  exact (log_holds_last_fifty (map numbered (seq 1 60))
           (numbered_handled 1 60)).
Defined.

Lemma one_entry_in_at_most_one_out_witness :
  exists e r log',
    records get_root e /\
    handle get_root oversized_log = returns (r, log') /\
    log' = e :: removelast oversized_log /\
    length log' = 60%nat.
Proof.
  exact (one_entry_in_at_most_one_out get_root oversized_log
           get_root_handled).
Defined.

Lemma log_entries_well_formed_witness :
  exists resps log,
    serve (map numbered (seq 1 60)) initial_log = returns (resps, log) /\
    Forall well_formed log.
Proof.
  exact (log_entries_well_formed (map numbered (seq 1 60))
           (numbered_handled 1 60)).
Defined.

Lemma user_agent_recorded_witness :
  (exists e, records get_without_agent e /\ user_agent e = Some "N/A") /\
  (exists e, records get_root e /\ user_agent e = Some "curl/8.5.0").
Proof.
  split.
  - destruct (user_agent_recorded get_without_agent
                get_without_agent_handled) as (e & He & _ & Hn & _).
    exists e. split; [exact He |]. apply Hn.
    repeat constructor; discriminate.
  - destruct (user_agent_recorded get_root get_root_handled)
      as (e & He & Hv & _).
    exists e. split; [exact He |]. apply Hv.
    exists [("Host", "localhost:5000")], "User-Agent", [("Accept", "*/*")].
    repeat split. repeat constructor; discriminate.
Defined.

Lemma get_body_first_values_witness :
  exists e d,
    records get_repeated e /\
    body e = str_dict d /\
    NoDup (map fst d) /\
    (forall k v, In (k, v) d <->
                 first_value [("a", "1"); ("b", "2"); ("a", "3")] k = Some v).
Proof. exact (get_body_first_values get_repeated eq_refl). Defined.

Lemma form_fields_recorded_witness :
  exists e d,
    records post_form e /\
    body e = str_dict d /\
    d <> [] /\
    NoDup (map fst d) /\
    (forall k v, In (k, v) d <->
                 first_value [("a", "1"); ("b", "2")] k = Some v) /\
    card_body (render_card e) = str_dict d.
Proof.
  apply (form_fields_recorded (P := sample_parsers) post_form);
    [reflexivity | reflexivity | discriminate].
Defined.

Lemma plain_payload_recorded_witness :
  exists e,
    records put_text e /\
    body e = PyStr "hello" /\
    card_body (render_card e) = PyStr "hello".
Proof. exact (plain_payload_recorded put_text eq_refl eq_refl eq_refl). Defined.

Lemma page_lists_the_log_witness :
  exists r log' cards,
    handle get_root initial_log = returns (r, log') /\
    page_listing (page r) = Cards cards /\
    page_listing (page r) <> EmptyState /\
    Forall2 shows log' cards /\
    page_count (page r) = length cards /\
    (1 <= page_count (page r))%nat /\
    page_request_url (page r) = "http://localhost:5000/".
Proof.
  exact (page_lists_the_log get_root initial_log get_root_handled).
Defined.

Lemma headers_block_lines_witness :
  exists e,
    records get_root e /\
    lines (headers e)
    = ["Host: localhost:5000"; "User-Agent: curl/8.5.0"; "Accept: */*"].
Proof.
  destruct (headers_block_lines get_root get_root_handled)
    as (e & He & _ & Hl).
  exists e. split; [exact He |].
  apply Hl; [discriminate | repeat constructor].
Defined.

Lemma json_first_witness :
  exists e,
    @records sample_parsers post_object e /\
    @records one_field_parsers post_object e /\
    body e = PyDict [("x", PyInt 1)].
Proof.
  exists {| timestamp := "2024-05-01 12:00:00";
            ip := Some "127.0.0.1";
            user_agent := Some "curl/8.5.0";
            method := "POST";
            path := "/hook";
            headers := headers_str (call_request post_object);
            body := PyDict [("x", PyInt 1)] |}.
  split; [reflexivity |]. split; [| reflexivity].
  apply (json_first (P := sample_parsers) one_field_parsers post_object
           (fun _ => eq_refl) eq_refl eq_refl).
  reflexivity.
Defined.
